(** * libpassim: the shared item ([passim-item.c])

    A shallow embedding of [PassimItem], its accessors, the loader
    [passim_item_load_filename], the checksum helper
    [passim_compute_checksum_for_filename] and the GVariant codec
    [passim_item_to_variant] / [passim_item_from_variant], together with
    the part of GLib these functions call. *)

From Stdlib Require Import ZArith String Ascii List Bool Lia.
From Stdlib Require Import Init.Byte.
From Stdlib Require Import Permutation.
Import ListNotations.

Local Open Scope string_scope.
Local Open Scope list_scope.
Local Open Scope Z_scope.

(** ** SHA-256, as [g_compute_checksum_for_data (G_CHECKSUM_SHA256, ...)]
    computes it (FIPS 180-4 over 32-bit words kept in [Z]). *)
Module Sha256.

Definition two32 : Z := 4294967296.

(** a [guint32] result: the value reduced modulo 2^32 *)
Definition u32 (x : Z) : Z := x mod two32.

Definition plus32 (x y : Z) : Z := u32 (x + y).

Definition rotr (n x : Z) : Z :=
  Z.lor (Z.shiftr x n) (u32 (Z.shiftl x (32 - n))).

Definition not32 (x : Z) : Z := Z.lxor x 0xFFFFFFFF.

Definition Ch (x y z : Z) : Z := Z.lxor (Z.land x y) (Z.land (not32 x) z).

Definition Maj (x y z : Z) : Z :=
  Z.lxor (Z.lxor (Z.land x y) (Z.land x z)) (Z.land y z).

Definition bsig0 (x : Z) : Z := Z.lxor (Z.lxor (rotr 2 x) (rotr 13 x)) (rotr 22 x).
Definition bsig1 (x : Z) : Z := Z.lxor (Z.lxor (rotr 6 x) (rotr 11 x)) (rotr 25 x).
Definition ssig0 (x : Z) : Z := Z.lxor (Z.lxor (rotr 7 x) (rotr 18 x)) (Z.shiftr x 3).
Definition ssig1 (x : Z) : Z := Z.lxor (Z.lxor (rotr 17 x) (rotr 19 x)) (Z.shiftr x 10).

Definition round_constants : list Z :=
  [ 0x428A2F98; 0x71374491; 0xB5C0FBCF; 0xE9B5DBA5;
    0x3956C25B; 0x59F111F1; 0x923F82A4; 0xAB1C5ED5;
    0xD807AA98; 0x12835B01; 0x243185BE; 0x550C7DC3;
    0x72BE5D74; 0x80DEB1FE; 0x9BDC06A7; 0xC19BF174;
    0xE49B69C1; 0xEFBE4786; 0x0FC19DC6; 0x240CA1CC;
    0x2DE92C6F; 0x4A7484AA; 0x5CB0A9DC; 0x76F988DA;
    0x983E5152; 0xA831C66D; 0xB00327C8; 0xBF597FC7;
    0xC6E00BF3; 0xD5A79147; 0x06CA6351; 0x14292967;
    0x27B70A85; 0x2E1B2138; 0x4D2C6DFC; 0x53380D13;
    0x650A7354; 0x766A0ABB; 0x81C2C92E; 0x92722C85;
    0xA2BFE8A1; 0xA81A664B; 0xC24B8B70; 0xC76C51A3;
    0xD192E819; 0xD6990624; 0xF40E3585; 0x106AA070;
    0x19A4C116; 0x1E376C08; 0x2748774C; 0x34B0BCB5;
    0x391C0CB3; 0x4ED8AA4A; 0x5B9CCA4F; 0x682E6FF3;
    0x748F82EE; 0x78A5636F; 0x84C87814; 0x8CC70208;
    0x90BEFFFA; 0xA4506CEB; 0xBEF9A3F7; 0xC67178F2 ].

(** the eight working words *)
Record ctx : Type := Ctx
  { wa : Z; wb : Z; wc : Z; wd : Z; we : Z; wf : Z; wg : Z; wh : Z }.

Definition sum_init : ctx :=
  Ctx 0x6A09E667 0xBB67AE85 0x3C6EF372 0xA54FF53A
      0x510E527F 0x9B05688C 0x1F83D9AB 0x5BE0CD19.

(** the message schedule, newest word first: entry [t] is computed from
    entries [t-2], [t-7], [t-15] and [t-16] *)
Fixpoint schedule (n : nat) (newest_first : list Z) : list Z :=
  match n with
  | O => newest_first
  | S n' =>
      let w i := nth i newest_first 0 in
      let wt := plus32 (plus32 (plus32 (ssig1 (w 1%nat)) (w 6%nat))
                               (ssig0 (w 14%nat))) (w 15%nat) in
      schedule n' (wt :: newest_first)
  end.

Definition round (s : ctx) (kw : Z * Z) : ctx :=
  let '(k, w) := kw in
  let t1 := plus32 (plus32 (plus32 (plus32 (wh s) (bsig1 (we s)))
                                   (Ch (we s) (wf s) (wg s))) k) w in
  let t2 := plus32 (bsig0 (wa s)) (Maj (wa s) (wb s) (wc s)) in
  Ctx (plus32 t1 t2) (wa s) (wb s) (wc s) (plus32 (wd s) t1) (we s) (wf s) (wg s).

(** one 512-bit block, given as sixteen big-endian words *)
Definition transform (s : ctx) (block : list Z) : ctx :=
  let w := rev (schedule 48 (rev block)) in
  let r := fold_left round (combine round_constants w) s in
  Ctx (plus32 (wa s) (wa r)) (plus32 (wb s) (wb r))
      (plus32 (wc s) (wc r)) (plus32 (wd s) (wd r))
      (plus32 (we s) (we r)) (plus32 (wf s) (wf r))
      (plus32 (wg s) (wg r)) (plus32 (wh s) (wh r)).

(** big-endian bytes of the low [8 * n] bits of [x] *)
Fixpoint be_bytes (n : nat) (x : Z) : list Z :=
  match n with
  | O => []
  | S n' => Z.land (Z.shiftr x (8 * Z.of_nat n')) 255 :: be_bytes n' x
  end.

(** 0x80, zero fill up to 56 modulo 64, then the bit length on 64 bits *)
Definition pad (data : list Z) : list Z :=
  let len := Z.of_nat (List.length data) in
  data ++ [128] ++ repeat 0 (Z.to_nat ((55 - len) mod 64))
       ++ be_bytes 8 (8 * len).

Fixpoint be_words (n : nat) (bytes : list Z) : list Z :=
  match n, bytes with
  | S n', b0 :: b1 :: b2 :: b3 :: rest =>
      (Z.shiftl b0 24 + Z.shiftl b1 16 + Z.shiftl b2 8 + b3)
        :: be_words n' rest
  | _, _ => []
  end.

Fixpoint blocks (n : nat) (bytes : list Z) : list (list Z) :=
  match n with
  | O => []
  | S n' =>
      match bytes with
      | [] => []
      | _ => be_words 16 (firstn 64 bytes) :: blocks n' (skipn 64 bytes)
      end
  end.

Definition digest (data : list byte) : ctx :=
  let padded := pad (map (fun b => Z.of_N (Byte.to_N b)) data) in
  fold_left transform (blocks (List.length padded) padded) sum_init.

Definition hex_digits : list ascii :=
  list_ascii_of_string "0123456789abcdef".

Definition hex_digit (nibble : Z) : ascii :=
  nth (Z.to_nat nibble) hex_digits "0"%char.

Definition hex_word (w : Z) : list ascii :=
  map (fun sh => hex_digit (Z.land (Z.shiftr w sh) 15))
      [28; 24; 20; 16; 12; 8; 4; 0].

(** [g_checksum_get_string]: the digest in lowercase hexadecimal *)
Definition get_string (s : ctx) : string :=
  string_of_list_ascii
    (concat (map hex_word
                 [wa s; wb s; wc s; wd s; we s; wf s; wg s; wh s])).

End Sha256.

(** [g_compute_checksum_for_data (G_CHECKSUM_SHA256, buf, bufsz)] *)
Definition g_compute_checksum_for_data_sha256 (buf : list byte) : string :=
  Sha256.get_string (Sha256.digest buf).


(** ** The part of GLib the item calls *)

(** A [gchar *] is an [option string]: [None] is the NULL pointer, and a
    string is its sequence of bytes. *)
Definition byte_of (c : ascii) : Z := Z.of_N (N_of_ascii c).

(** [strcmp]: the bytes are compared as [unsigned char] *)
Fixpoint strcmp (s1 s2 : string) : Z :=
  match s1, s2 with
  | EmptyString, EmptyString => 0
  | EmptyString, String _ _ => -1
  | String _ _, EmptyString => 1
  | String c1 t1, String c2 t2 =>
      if byte_of c1 =? byte_of c2 then strcmp t1 t2
      else byte_of c1 - byte_of c2
  end.

(** [g_strcmp0]: [strcmp] that takes NULL, which sorts before any string *)
Definition g_strcmp0 (str1 str2 : option string) : Z :=
  match str1, str2 with
  | None, None => 0
  | None, Some _ => -1
  | Some _, None => 1
  | Some a, Some b => strcmp a b
  end.

(** [g_strdup]: a copy of the string, NULL for NULL *)
Definition g_strdup (str : option string) : option string := str.

Definition is_dir_separator (c : ascii) : bool := Ascii.eqb c "/"%char.

Fixpoint drop_while {A : Type} (p : A -> bool) (l : list A) : list A :=
  match l with
  | [] => []
  | x :: r => if p x then drop_while p r else l
  end.

Fixpoint take_while {A : Type} (p : A -> bool) (l : list A) : list A :=
  match l with
  | [] => []
  | x :: r => if p x then x :: take_while p r else []
  end.

(** [g_path_get_basename]: "." for the empty name, "/" for a name made of
    separators only; otherwise the trailing separators are skipped from the
    end ([last_nonslash]) and the bytes back to the previous separator
    ([base]) are copied. *)
Definition g_path_get_basename (file_name : string) : string :=
  match file_name with
  | EmptyString => "."
  | _ =>
      let backwards := rev (list_ascii_of_string file_name) in
      match drop_while is_dir_separator backwards with
      | [] => "/"
      | from_last_nonslash =>
          string_of_list_ascii
            (rev (take_while (fun c => negb (is_dir_separator c))
                             from_last_nonslash))
      end
  end.

Definition is_continuation (b : Z) : bool := (0x80 <=? b) && (b <=? 0xBF).

(** Well-formed UTF-8 (no overlong form, no surrogate, nothing above
    U+10FFFF) without a nul byte. *)
Fixpoint utf8_valid (bytes : list Z) : bool :=
  match bytes with
  | [] => true
  | b0 :: r0 =>
      if b0 <? 0x80 then (0 <? b0) && utf8_valid r0
      else if b0 <? 0xC2 then false
      else if b0 <? 0xE0 then
        match r0 with
        | b1 :: r1 => is_continuation b1 && utf8_valid r1
        | _ => false
        end
      else if b0 <? 0xF0 then
        match r0 with
        | b1 :: b2 :: r2 =>
            (if b0 =? 0xE0 then (0xA0 <=? b1) && (b1 <=? 0xBF)
             else if b0 =? 0xED then (0x80 <=? b1) && (b1 <=? 0x9F)
             else is_continuation b1)
            && is_continuation b2 && utf8_valid r2
        | _ => false
        end
      else if b0 <? 0xF5 then
        match r0 with
        | b1 :: b2 :: b3 :: r3 =>
            (if b0 =? 0xF0 then (0x90 <=? b1) && (b1 <=? 0xBF)
             else if b0 =? 0xF4 then (0x80 <=? b1) && (b1 <=? 0x8F)
             else is_continuation b1)
            && is_continuation b2 && is_continuation b3 && utf8_valid r3
        | _ => false
        end
      else false
  end.

(** [g_utf8_validate (str, -1, NULL)] *)
Definition g_utf8_validate (str : string) : bool :=
  utf8_valid (map byte_of (list_ascii_of_string str)).

(** *** GVariant *)

(** The values a vardict entry can box; only strings and uint32 are read
    by the item. *)
Inductive GVariant : Type :=
| GV_string (s : string)
| GV_uint32 (n : Z)
| GV_int32 (n : Z)
| GV_boolean (b : bool).

(** A value of type [a{sv}]: an array of entries, in order, where a key
    may occur more than once. *)
Definition VarDict : Type := list (string * GVariant).

(** A result together with the number of GLib calls that failed a
    [g_return_if_fail] precondition on the way (each logs a critical and
    returns NULL or zero). *)
Record Traced (A : Type) : Type := Trace { result : A; criticals : nat }.
Arguments Trace {A} result criticals.
Arguments result {A} t.
Arguments criticals {A} t.

Definition ret {A : Type} (a : A) : Traced A := Trace a 0.

Definition bind {A B : Type} (m : Traced A) (k : A -> Traced B) : Traced B :=
  let r := k (result m) in
  Trace (result r) (criticals m + criticals r).

Notation "x <- m ;; k" := (bind m (fun x => k))
  (at level 61, m at next level, right associativity).

(** [g_variant_new_string]: "string must be valid UTF-8, and must not be
    NULL"; both are [g_return_val_if_fail] preconditions, and NULL is
    returned when one fails. *)
Definition g_variant_new_string (str : option string) : Traced (option GVariant) :=
  match str with
  | None => Trace None 1
  | Some s => if g_utf8_validate s then ret (Some (GV_string s))
              else Trace None 1
  end.

Definition g_variant_new_uint32 (n : Z) : Traced (option GVariant) :=
  ret (Some (GV_uint32 n)).

(** [g_variant_dup_string (value, NULL)]: NULL when the value is no string *)
Definition g_variant_dup_string (value : GVariant) : Traced (option string) :=
  match value with
  | GV_string s => ret (Some s)
  | _ => Trace None 1
  end.

(** [g_variant_get_uint32]: zero when the value is no uint32 *)
Definition g_variant_get_uint32 (value : GVariant) : Traced Z :=
  match value with
  | GV_uint32 n => ret n
  | _ => Trace 0 1
  end.

Definition GVariantBuilder : Type := VarDict.

Definition g_variant_builder_init : GVariantBuilder := [].

(** [g_variant_builder_add (&builder, "{sv}", key, value)]: the entry is
    appended; with a NULL [value] no entry can be built and the builder is
    left as it was. *)
Definition g_variant_builder_add_sv (builder : GVariantBuilder)
    (key : string) (value : option GVariant) : Traced GVariantBuilder :=
  match value with
  | Some v => ret (builder ++ [(key, v)])
  | None => Trace builder 1
  end.

Definition g_variant_builder_end (builder : GVariantBuilder) : VarDict := builder.

(** Look a key up the way a consumer of the dictionary does: first match. *)
Fixpoint g_variant_lookup_value (dict : VarDict) (key : string) : option GVariant :=
  match dict with
  | [] => None
  | (k, v) :: rest => if String.eqb k key then Some v
                      else g_variant_lookup_value rest key
  end.

(** The entry a pass over the whole array leaves in effect: last match. *)
Definition last_value (dict : VarDict) (key : string) : option GVariant :=
  g_variant_lookup_value (rev dict) key.

(** *** Files *)

Inductive GIOErrorEnum : Type :=
| G_IO_ERROR_FAILED
| G_IO_ERROR_NOT_FOUND
| G_IO_ERROR_PERMISSION_DENIED.

Inductive GFileError : Type :=
| G_FILE_ERROR_NOENT
| G_FILE_ERROR_ACCES
| G_FILE_ERROR_IO.

(** A [GError]: its domain and code. *)
Inductive GError : Type :=
| G_IO_ERROR (code : GIOErrorEnum)
| G_FILE_ERROR (code : GFileError).

Record GDateTime : Type := { unix_usec : Z }.

Record GFile : Type := { g_file_peek_path : string }.

(** The info queried with [G_FILE_ATTRIBUTE_TIME_CREATED]; the attribute is
    absent when the filesystem does not report a creation time. *)
Record GFileInfo : Type := { time_created : option GDateTime }.

(** What the filesystem answers to the two calls the item makes. *)
Record FileSystem : Type :=
  { query_info : string -> GIOErrorEnum + GFileInfo;
    get_contents : string -> GFileError + list byte }.

Definition g_file_new_for_path (path : string) : GFile :=
  {| g_file_peek_path := path |}.

Definition g_file_query_info (fs : FileSystem) (file : GFile) : GError + GFileInfo :=
  match query_info fs (g_file_peek_path file) with
  | inl code => inl (G_IO_ERROR code)
  | inr info => inr info
  end.

(** [g_file_info_get_creation_date_time]: "creation time, or NULL if
    unknown" *)
Definition g_file_info_get_creation_date_time (info : GFileInfo) : option GDateTime :=
  time_created info.

Definition g_file_get_contents (fs : FileSystem) (filename : string)
  : GError + list byte :=
  match get_contents fs filename with
  | inl code => inl (G_FILE_ERROR code)
  | inr buf => inr buf
  end.

(** ** PassimItem *)

(** [PassimItemPrivate]; a [guint32] field holds a [Z] in [0, 2^32). *)
Record PassimItemPrivate : Type := Priv
  { hash : option string;
    basename : option string;
    max_age : Z;
    share_limit : Z;
    share_count : Z;
    file : option GFile;
    ctime : option GDateTime }.

Definition guint32_ok (n : Z) : Prop := 0 <= n < Sha256.two32.

Definition item_ok (p : PassimItemPrivate) : Prop :=
  guint32_ok (max_age p) /\ guint32_ok (share_limit p) /\ guint32_ok (share_count p).

(** Assignments to one field of [priv]. *)
Definition assign_hash (p : PassimItemPrivate) (v : option string) :=
  Priv v (basename p) (max_age p) (share_limit p) (share_count p) (file p) (ctime p).
Definition assign_basename (p : PassimItemPrivate) (v : option string) :=
  Priv (hash p) v (max_age p) (share_limit p) (share_count p) (file p) (ctime p).
Definition assign_max_age (p : PassimItemPrivate) (v : Z) :=
  Priv (hash p) (basename p) v (share_limit p) (share_count p) (file p) (ctime p).
Definition assign_share_limit (p : PassimItemPrivate) (v : Z) :=
  Priv (hash p) (basename p) (max_age p) v (share_count p) (file p) (ctime p).
Definition assign_share_count (p : PassimItemPrivate) (v : Z) :=
  Priv (hash p) (basename p) (max_age p) (share_limit p) v (file p) (ctime p).
Definition assign_file (p : PassimItemPrivate) (v : option GFile) :=
  Priv (hash p) (basename p) (max_age p) (share_limit p) (share_count p) v (ctime p).
Definition assign_ctime (p : PassimItemPrivate) (v : option GDateTime) :=
  Priv (hash p) (basename p) (max_age p) (share_limit p) (share_count p) (file p) v.

Definition passim_item_get_hash (self : PassimItemPrivate) : option string :=
  hash self.

Definition passim_item_set_hash (self : PassimItemPrivate) (new_hash : option string)
  : PassimItemPrivate :=
  (* not changed *)
  if g_strcmp0 (hash self) new_hash =? 0 then self
  else assign_hash self (g_strdup new_hash).

Definition passim_item_get_basename (self : PassimItemPrivate) : option string :=
  basename self.

Definition passim_item_set_basename (self : PassimItemPrivate)
    (new_basename : option string) : PassimItemPrivate :=
  (* not changed *)
  if g_strcmp0 (basename self) new_basename =? 0 then self
  else assign_basename self (g_strdup new_basename).

Definition passim_item_get_max_age (self : PassimItemPrivate) : Z := max_age self.
Definition passim_item_set_max_age (self : PassimItemPrivate) (v : Z) :=
  assign_max_age self v.

Definition passim_item_get_share_limit (self : PassimItemPrivate) : Z := share_limit self.
Definition passim_item_set_share_limit (self : PassimItemPrivate) (v : Z) :=
  assign_share_limit self v.

Definition passim_item_get_share_count (self : PassimItemPrivate) : Z := share_count self.
Definition passim_item_set_share_count (self : PassimItemPrivate) (v : Z) :=
  assign_share_count self v.

Definition passim_item_get_file (self : PassimItemPrivate) : option GFile := file self.

(** [g_set_object (&priv->file, file)] *)
Definition passim_item_set_file (self : PassimItemPrivate) (new_file : option GFile) :=
  assign_file self new_file.

Definition passim_item_get_ctime (self : PassimItemPrivate) : option GDateTime :=
  ctime self.

(** Two [GDateTime *] are the same pointer; a handle is identified with
    the instant it holds. *)
Definition same_date_time (a b : option GDateTime) : bool :=
  match a, b with
  | None, None => true
  | Some x, Some y => unix_usec x =? unix_usec y
  | _, _ => false
  end.

Definition passim_item_set_ctime (self : PassimItemPrivate)
    (new_ctime : option GDateTime) : PassimItemPrivate :=
  (* not changed *)
  if same_date_time (ctime self) new_ctime then self
  else
    let self := match ctime self with
                | Some _ => assign_ctime self None
                | None => self
                end in
    match new_ctime with
    | Some _ => assign_ctime self new_ctime
    | None => self
    end.

(** [g_object_new] hands [passim_item_init] a zero-filled private struct. *)
Definition zeroed_private : PassimItemPrivate :=
  Priv None None 0 0 0 None None.

Definition passim_item_init (priv : PassimItemPrivate) : PassimItemPrivate :=
  let priv := assign_max_age priv (24 * 60 * 60) in
  assign_share_limit priv 5.

Definition passim_item_new : PassimItemPrivate :=
  passim_item_init zeroed_private.

Definition passim_compute_checksum_for_filename (fs : FileSystem) (filename : string)
  : GError + string :=
  match g_file_get_contents fs filename with
  | inl err => inl err
  | inr buf => inr (g_compute_checksum_for_data_sha256 buf)
  end.

(** What [passim_item_load_filename] returns: [TRUE], or [FALSE] with
    [*error] set. *)
Inductive gboolean_error : Type :=
| TRUE
| FALSE (error : GError).

(** The item after the call, and the value returned. *)
Definition passim_item_load_filename (fs : FileSystem) (self : PassimItemPrivate)
    (filename : string) : PassimItemPrivate * gboolean_error :=
  (* set file *)
  let gfile := g_file_new_for_path filename in
  let self := passim_item_set_file self (Some gfile) in
  (* get ctime *)
  match g_file_query_info fs gfile with
  | inl err => (self, FALSE err)
  | inr info =>
      let self := assign_ctime self (g_file_info_get_creation_date_time info) in
      (* if not already set *)
      let self :=
        match basename self with
        | None => assign_basename self (Some (g_path_get_basename filename))
        | Some _ => self
        end in
      match hash self with
      | None =>
          match passim_compute_checksum_for_filename fs filename with
          | inl err => (assign_hash self None, FALSE err)
          | inr sum => (assign_hash self (Some sum), TRUE)
          end
      | Some _ => (* success *) (self, TRUE)
      end
  end.

Definition passim_item_to_variant (self : PassimItemPrivate) : Traced VarDict :=
  let builder := g_variant_builder_init in
  v <- g_variant_new_string (basename self) ;;
  builder <- g_variant_builder_add_sv builder "filename" v ;;
  v <- g_variant_new_string (hash self) ;;
  builder <- g_variant_builder_add_sv builder "hash" v ;;
  v <- g_variant_new_uint32 (max_age self) ;;
  builder <- g_variant_builder_add_sv builder "max-age" v ;;
  v <- g_variant_new_uint32 (share_limit self) ;;
  builder <- g_variant_builder_add_sv builder "share-limit" v ;;
  v <- g_variant_new_uint32 (share_count self) ;;
  builder <- g_variant_builder_add_sv builder "share-count" v ;;
  ret (g_variant_builder_end builder).

(** The body of the [while (g_variant_iter_next (...))] loop. *)
Definition from_variant_entry (priv : PassimItemPrivate) (entry : string * GVariant)
  : Traced PassimItemPrivate :=
  let '(key, value) := entry in
  priv <- (if g_strcmp0 (Some key) (Some "filename") =? 0
           then s <- g_variant_dup_string value ;; ret (assign_basename priv s)
           else ret priv) ;;
  priv <- (if g_strcmp0 (Some key) (Some "hash") =? 0
           then s <- g_variant_dup_string value ;; ret (assign_hash priv s)
           else ret priv) ;;
  priv <- (if g_strcmp0 (Some key) (Some "max-age") =? 0
           then n <- g_variant_get_uint32 value ;; ret (assign_max_age priv n)
           else ret priv) ;;
  priv <- (if g_strcmp0 (Some key) (Some "share-limit") =? 0
           then n <- g_variant_get_uint32 value ;; ret (assign_share_limit priv n)
           else ret priv) ;;
  priv <- (if g_strcmp0 (Some key) (Some "share-count") =? 0
           then n <- g_variant_get_uint32 value ;; ret (assign_share_count priv n)
           else ret priv) ;;
  ret priv.

Definition from_variant_loop (entries : VarDict) (start : Traced PassimItemPrivate)
  : Traced PassimItemPrivate :=
  fold_left (fun acc entry => priv <- acc ;; from_variant_entry priv entry)
            entries start.

Definition passim_item_from_variant (variant : VarDict) : Traced PassimItemPrivate :=
  from_variant_loop variant (ret passim_item_new).

(** The keys [passim_item_from_variant] reads. *)
Definition recognized_keys : list string :=
  ["filename"; "hash"; "max-age"; "share-limit"; "share-count"].

Definition is_recognized (key : string) : bool :=
  existsb (String.eqb key) recognized_keys.

(** A well-typed input: strings under "filename" and "hash", uint32 under
    the three counters; other keys may hold anything. *)
Definition entry_well_typed (entry : string * GVariant) : bool :=
  let '(key, value) := entry in
  if String.eqb key "filename" || String.eqb key "hash" then
    match value with GV_string _ => true | _ => false end
  else if String.eqb key "max-age" || String.eqb key "share-limit"
          || String.eqb key "share-count" then
    match value with GV_uint32 _ => true | _ => false end
  else true.

Definition well_typed (dict : VarDict) : bool := forallb entry_well_typed dict.

Definition is_lower_hex (c : ascii) : bool :=
  existsb (Ascii.eqb c) Sha256.hex_digits.

(** The value of the last entry under [key] read as a string, or
    [default] when the key does not occur. *)
Definition string_at (dict : VarDict) (key : string) (default : option string)
  : option string :=
  match last_value dict key with
  | Some v => result (g_variant_dup_string v)
  | None => default
  end.

(** The same for a uint32. *)
Definition uint32_at (dict : VarDict) (key : string) (default : Z) : Z :=
  match last_value dict key with
  | Some v => result (g_variant_get_uint32 v)
  | None => default
  end.

(** A name in ISO-8859-1: the byte 0xE9 followed by ".bin". *)
Definition latin1_name : string := String (ascii_of_nat 233) ".bin".

(** A filesystem with one readable file, "/tmp/hello", holding "hello";
    every other path is missing. *)
Definition hello_fs : FileSystem :=
  {| query_info := fun path =>
       if String.eqb path "/tmp/hello"
       then inr {| time_created := Some {| unix_usec := 1700000000000000 |} |}
       else inl G_IO_ERROR_NOT_FOUND;
     get_contents := fun path =>
       if String.eqb path "/tmp/hello" then inr (list_byte_of_string "hello")
       else inl G_FILE_ERROR_NOENT |}.

(** A name without a directory separator. *)
Definition no_separator (name : string) : bool :=
  forallb (fun c => negb (is_dir_separator c)) (list_ascii_of_string name).

(** A filesystem that reports no creation time: the info of "/srv/a.bin"
    is there but carries no [time::created]. *)
Definition no_btime_fs : FileSystem :=
  {| query_info := fun path =>
       if String.eqb path "/srv/a.bin" then inr {| time_created := None |}
       else inl G_IO_ERROR_NOT_FOUND;
     get_contents := fun path =>
       if String.eqb path "/srv/a.bin" then inr (list_byte_of_string "hello")
       else inl G_FILE_ERROR_NOENT |}.

(** An item published under [latin1_name]. *)
Definition latin1_item : PassimItemPrivate :=
  Priv (Some "abc") (Some latin1_name) 86400 5 0 None None.

(** An item with both identity fields set to ASCII text. *)
Definition sample_item : PassimItemPrivate :=
  Priv (Some "abc") (Some "a.bin") 3600 2 1 None None.

(** A dictionary with a repeated key and a key the item does not know. *)
Definition sample_dict : VarDict :=
  [("max-age", GV_uint32 60); ("hash", GV_string "abc");
   ("unknown-key", GV_int32 1); ("max-age", GV_uint32 7200)].

(** What [g_variant_new_string] lets through of a string field: the
    string when it is set and valid UTF-8, nothing otherwise. *)
Definition encodable (str : option string) : option string :=
  match str with
  | Some s => if g_utf8_validate s then Some s else None
  | None => None
  end.

(** The number of entries that hold a value of the wrong type under one of
    the five keys. *)
Definition ill_typed_entries (dict : VarDict) : nat :=
  List.length (filter (fun entry => negb (entry_well_typed entry)) dict).

(** A string made of directory separators only. *)
Definition only_separators (s : string) : bool :=
  forallb is_dir_separator (list_ascii_of_string s).

(** A filesystem on which "/srv/locked.bin" can be queried but not read. *)
Definition unreadable_fs : FileSystem :=
  {| query_info := fun path =>
       if String.eqb path "/srv/locked.bin"
       then inr {| time_created := Some {| unix_usec := 1700000000000000 |} |}
       else inl G_IO_ERROR_NOT_FOUND;
     get_contents := fun _ => inl G_FILE_ERROR_ACCES |}.

(** A filesystem holding the directory "/srv/dir", queried with trailing
    separators, for an item that already has its hash. *)
Definition dir_fs : FileSystem :=
  {| query_info := fun path =>
       if String.eqb path "/srv/dir//" then inr {| time_created := None |}
       else inl G_IO_ERROR_NOT_FOUND;
     get_contents := fun _ => inl G_FILE_ERROR_IO |}.

(** Two orders of the same two entries. *)
Definition hash_then_age : VarDict :=
  [("hash", GV_string "abc"); ("max-age", GV_uint32 60)].
Definition age_then_hash : VarDict :=
  [("max-age", GV_uint32 60); ("hash", GV_string "abc")].


(** A dictionary with a repeated and an unknown key around the two
    identity entries. *)
Definition noisy_dict : VarDict :=
  [("max-age", GV_uint32 60); ("hash", GV_string "abc");
   ("unknown-key", GV_int32 1); ("filename", GV_string "a.bin");
   ("max-age", GV_uint32 7200)].

(** ** Facts about the GLib functions *)

Lemma byte_of_inj (c1 c2 : ascii) : byte_of c1 = byte_of c2 -> c1 = c2.
Proof.
  unfold byte_of. intros H. apply N2Z.inj in H.
  rewrite <- (ascii_N_embedding c1), <- (ascii_N_embedding c2).
  now rewrite H.
Qed.

Lemma strcmp_refl (s : string) : strcmp s s = 0.
Proof.
  induction s as [|c s IH]; simpl; [reflexivity|].
  now rewrite Z.eqb_refl.
Qed.

Lemma strcmp_zero_eq (s1 : string) : forall s2, strcmp s1 s2 = 0 -> s1 = s2.
Proof.
  induction s1 as [|c1 t1 IH]; intros [|c2 t2]; simpl; try discriminate; auto.
  destruct (Z.eqb_spec (byte_of c1) (byte_of c2)) as [E|N]; intros H.
  - f_equal; [now apply byte_of_inj | now apply IH].
  - lia.
Qed.

Lemma g_strcmp0_refl (str : option string) : g_strcmp0 str str = 0.
Proof. destruct str; simpl; [apply strcmp_refl | reflexivity]. Qed.

Lemma g_strcmp0_eqb (a b : string) :
  (g_strcmp0 (Some a) (Some b) =? 0) = String.eqb a b.
Proof.
  simpl. destruct (String.eqb_spec a b) as [->|N].
  - now rewrite strcmp_refl.
  - destruct (Z.eqb_spec (strcmp a b) 0) as [E|_]; [|reflexivity].
    now apply strcmp_zero_eq in E.
Qed.

(** The checksum on the FIPS 180-4 sample messages. *)
Example sha256_hello :
  g_compute_checksum_for_data_sha256 (list_byte_of_string "hello")
  = "2cf24dba5fb0a30e26e83b2ac5b9e29e1b161e5c1fa7425e73043362938b9824".
Proof. vm_compute. reflexivity. Qed.

Example sha256_empty :
  g_compute_checksum_for_data_sha256 []
  = "e3b0c44298fc1c149afbf4c8996fb92427ae41e4649b934ca495991b7852b855".
Proof. vm_compute. reflexivity. Qed.

Example sha256_abc :
  g_compute_checksum_for_data_sha256 (list_byte_of_string "abc")
  = "ba7816bf8f01cfea414140de5dae2223b00361a396177a9cb410ff61f20015ad".
Proof. vm_compute. reflexivity. Qed.

Example sha256_two_blocks :
  g_compute_checksum_for_data_sha256
    (list_byte_of_string "abcdbcdecdefdefgefghfghighijhijkijkljklmklmnlmnomnopnopq")
  = "248d6a61d20638b8e5c026930c3e6039a33ce45964ff2167f6ecedd419db06c1".
Proof. vm_compute. reflexivity. Qed.

Example utf8_valid_examples :
  utf8_valid [0x61; 0xC3; 0xA9] = true
  /\ utf8_valid [0xF0; 0x9F; 0x98; 0x80] = true
  /\ utf8_valid [0xE9; 0x2E] = false
  /\ utf8_valid [0xC0; 0x80] = false
  /\ utf8_valid [0xED; 0xA0; 0x80] = false
  /\ utf8_valid [0xF4; 0x90; 0x80; 0x80] = false
  /\ utf8_valid [0xE2; 0x82] = false
  /\ utf8_valid [0] = false.
Proof. repeat split. Qed.

(** ** Construction and accessors *)

(** C7. Default construction: a freshly constructed item has
    [max_age = 86400], [share_limit = 5], [share_count = 0], and [hash],
    [basename], [file] and [ctime] unset. *)
Theorem C7_default_construction :
  max_age passim_item_new = 86400
  /\ share_limit passim_item_new = 5
  /\ share_count passim_item_new = 0
  /\ hash passim_item_new = None
  /\ basename passim_item_new = None
  /\ file passim_item_new = None
  /\ ctime passim_item_new = None.
Proof. repeat split. Qed.

Lemma passim_item_new_ok : item_ok passim_item_new.
Proof. unfold item_ok, guint32_ok, Sha256.two32; cbn; lia. Qed.

(** C8. Idempotent string setters: calling [passim_item_set_hash] (or
    [passim_item_set_basename]) with the value the field already has,
    the unset value included, leaves the whole item as it was. *)
Theorem C8_string_setters_idempotent (self : PassimItemPrivate) :
  passim_item_set_hash self (passim_item_get_hash self) = self
  /\ passim_item_set_basename self (passim_item_get_basename self) = self.
Proof.
  unfold passim_item_set_hash, passim_item_set_basename,
    passim_item_get_hash, passim_item_get_basename.
  now rewrite !g_strcmp0_refl.
Qed.

(** C10. String setters unset on NULL: on an item whose hash (or
    basename) is set, [passim_item_set_hash] (or
    [passim_item_set_basename]) called with NULL clears the field, the
    getter then returns NULL, and no other field changes. *)
Theorem C10_string_setters_unset_on_null (self : PassimItemPrivate) :
  (forall h, hash self = Some h ->
     let self' := passim_item_set_hash self None in
     passim_item_get_hash self' = None
     /\ self' = assign_hash self None)
  /\ (forall b, basename self = Some b ->
     let self' := passim_item_set_basename self None in
     passim_item_get_basename self' = None
     /\ self' = assign_basename self None).
Proof.
  split; intros v Hv; unfold passim_item_set_hash, passim_item_set_basename;
    rewrite Hv; simpl; split; reflexivity.
Qed.

Lemma C10_witness :
  let self := Priv (Some "abc") (Some "a.bin") 86400 5 0 None None in
  (passim_item_get_hash (passim_item_set_hash self None) = None
   /\ passim_item_set_hash self None = assign_hash self None)
  /\ (passim_item_get_basename (passim_item_set_basename self None) = None
      /\ passim_item_set_basename self None = assign_basename self None).
Proof.
  intros self.
  destruct (C10_string_setters_unset_on_null self) as [Hh Hb].
  split; [apply (Hh "abc") | apply (Hb "a.bin")]; reflexivity.
Defined.

(** ** The checksum *)

Lemma string_of_list_ascii_length (l : list ascii) :
  String.length (string_of_list_ascii l) = List.length l.
Proof. induction l as [|c l IH]; simpl; congruence. Qed.

Lemma hex_digit_lower (nibble : Z) : is_lower_hex (Sha256.hex_digit nibble) = true.
Proof.
  unfold Sha256.hex_digit. generalize (Z.to_nat nibble) as k. intros k.
  do 16 (destruct k as [|k]; [reflexivity|]).
  destruct k; reflexivity.
Qed.

Lemma hex_word_lower (w : Z) : forallb is_lower_hex (Sha256.hex_word w) = true.
Proof.
  unfold Sha256.hex_word. cbn [map forallb].
  now rewrite !hex_digit_lower.
Qed.

Lemma get_string_length (s : Sha256.ctx) :
  String.length (Sha256.get_string s) = 64%nat.
Proof.
  unfold Sha256.get_string. rewrite string_of_list_ascii_length.
  reflexivity.
Qed.

Lemma get_string_lower (s : Sha256.ctx) :
  forallb is_lower_hex (list_ascii_of_string (Sha256.get_string s)) = true.
Proof.
  unfold Sha256.get_string. rewrite list_ascii_of_string_of_list_ascii.
  cbn [map concat]. rewrite !forallb_app, !hex_word_lower. reflexivity.
Qed.

(** C2. [passim_compute_checksum_for_filename] returns the SHA-256 of the
    whole content of the file as 64 lowercase hexadecimal digits; the
    result depends on the bytes alone (the same content under any name, on
    any filesystem, gives the same string); and the five bytes "hello"
    give 2cf24dba...938b9824. *)
Theorem C2_checksum (fs : FileSystem) (filename : string) (buf : list byte) :
  g_file_get_contents fs filename = inr buf ->
  let sum := g_compute_checksum_for_data_sha256 buf in
  passim_compute_checksum_for_filename fs filename = inr sum
  /\ String.length sum = 64%nat
  /\ forallb is_lower_hex (list_ascii_of_string sum) = true
  /\ (forall fs' filename',
        g_file_get_contents fs' filename' = inr buf ->
        passim_compute_checksum_for_filename fs' filename'
        = passim_compute_checksum_for_filename fs filename)
  /\ (buf = list_byte_of_string "hello" ->
      passim_compute_checksum_for_filename fs filename
      = inr "2cf24dba5fb0a30e26e83b2ac5b9e29e1b161e5c1fa7425e73043362938b9824").
Proof.
  intros Hread sum. unfold passim_compute_checksum_for_filename.
  rewrite Hread.
  split; [reflexivity|].
  split; [apply get_string_length|].
  split; [apply get_string_lower|].
  split.
  - intros fs' filename' Hread'. now rewrite Hread'.
  - intros ->. vm_compute. reflexivity.
Qed.

Lemma C2_witness :
  passim_compute_checksum_for_filename hello_fs "/tmp/hello"
  = inr "2cf24dba5fb0a30e26e83b2ac5b9e29e1b161e5c1fa7425e73043362938b9824".
Proof.
  destruct (C2_checksum hello_fs "/tmp/hello" (list_byte_of_string "hello") eq_refl)
    as (_ & _ & _ & _ & Hhello).
  apply Hhello. reflexivity.
Defined.

(** ** The loader *)

Lemma list_ascii_of_string_app (a b : string) :
  list_ascii_of_string (a ++ b)%string
  = list_ascii_of_string a ++ list_ascii_of_string b.
Proof. induction a as [|c a IH]; simpl; congruence. Qed.

Lemma take_while_app_stop {A : Type} (p : A -> bool) (l : list A) (x : A) (r : list A) :
  forallb p l = true -> p x = false -> take_while p (l ++ x :: r) = l.
Proof.
  intros Hl Hx. induction l as [|y l IH]; simpl in *.
  - now rewrite Hx.
  - apply andb_true_iff in Hl as [Hy Hl]. rewrite Hy. f_equal. now apply IH.
Qed.

Lemma forallb_rev {A : Type} (p : A -> bool) (l : list A) :
  forallb p (rev l) = forallb p l.
Proof.
  induction l as [|x l IH]; simpl; [reflexivity|].
  rewrite forallb_app, IH. simpl. rewrite andb_true_r. apply andb_comm.
Qed.

Lemma g_path_get_basename_nonempty (file_name : string) :
  file_name <> "" ->
  g_path_get_basename file_name
  = match drop_while is_dir_separator (rev (list_ascii_of_string file_name)) with
    | [] => "/"
    | from_last_nonslash =>
        string_of_list_ascii
          (rev (take_while (fun c => negb (is_dir_separator c)) from_last_nonslash))
    end.
Proof. destruct file_name; [congruence | reflexivity]. Qed.

(** The basename of [dir/name] is [name]. *)
Lemma g_path_get_basename_component (dir name : string) :
  name <> "" -> no_separator name = true ->
  g_path_get_basename (dir ++ "/" ++ name)%string = name.
Proof.
  intros Hne Hsep. rewrite g_path_get_basename_nonempty.
  2:{ destruct dir; discriminate. }
  rewrite list_ascii_of_string_app. cbn [append list_ascii_of_string].
  rewrite rev_app_distr. cbn [rev]. rewrite <- app_assoc. cbn [app].
  unfold no_separator in Hsep. rewrite <- forallb_rev in Hsep.
  assert (Hlen : rev (list_ascii_of_string name) <> []).
  { destruct name; [congruence|]. simpl. now destruct (rev (list_ascii_of_string name)). }
  destruct (rev (list_ascii_of_string name)) as [|x r] eqn:E; [congruence|].
  pose proof Hsep as Hx. cbn [forallb] in Hx. apply andb_true_iff in Hx as [Hx _].
  cbn [app drop_while]. apply negb_true_iff in Hx. rewrite Hx.
  change (x :: r ++ "/"%char :: rev (list_ascii_of_string dir))
    with ((x :: r) ++ "/"%char :: rev (list_ascii_of_string dir)).
  rewrite take_while_app_stop; [| exact Hsep | reflexivity].
  rewrite <- E, rev_involutive. apply string_of_list_ascii_of_string.
Qed.

Example basename_examples :
  g_path_get_basename "/var/lib/passim/data/a.bin" = "a.bin"
  /\ g_path_get_basename "a.bin" = "a.bin"
  /\ g_path_get_basename "/srv/dir//" = "dir"
  /\ g_path_get_basename "//" = "/"
  /\ g_path_get_basename "" = ".".
Proof. repeat split. Qed.

(** C4. When the metadata query fails, [passim_item_load_filename]
    returns FALSE with the G_IO_ERROR of the query, the item's file is the
    handle for the path, and basename and hash (and every other field) are
    as before the call. *)
Theorem C4_load_metadata_failure
    (fs : FileSystem) (self : PassimItemPrivate) (filename : string)
    (code : GIOErrorEnum) :
  query_info fs filename = inl code ->
  let after := passim_item_load_filename fs self filename in
  snd after = FALSE (G_IO_ERROR code)
  /\ file (fst after) = Some (g_file_new_for_path filename)
  /\ basename (fst after) = basename self
  /\ hash (fst after) = hash self
  /\ fst after = assign_file self (Some (g_file_new_for_path filename)).
Proof.
  intros Hq. unfold passim_item_load_filename, g_file_query_info.
  cbn [g_file_new_for_path g_file_peek_path]. rewrite Hq.
  repeat split.
Qed.

Lemma C4_witness :
  let self := Priv (Some "abc") None 86400 5 0 None None in
  let after := passim_item_load_filename hello_fs self "/nonexistent" in
  snd after = FALSE (G_IO_ERROR G_IO_ERROR_NOT_FOUND)
  /\ file (fst after) = Some (g_file_new_for_path "/nonexistent")
  /\ basename (fst after) = None
  /\ hash (fst after) = Some "abc"
  /\ fst after = assign_file self (Some (g_file_new_for_path "/nonexistent")).
Proof.
  intros self.
  apply (C4_load_metadata_failure hello_fs self "/nonexistent" G_IO_ERROR_NOT_FOUND).
  reflexivity.
Defined.

(** What the call does to the item and what it returns, by the answer of
    the metadata query. *)
Lemma load_query_failed fs self filename code :
  query_info fs filename = inl code ->
  passim_item_load_filename fs self filename
  = (assign_file self (Some (g_file_new_for_path filename)),
     FALSE (G_IO_ERROR code)).
Proof.
  intros Hq. unfold passim_item_load_filename, g_file_query_info.
  cbn [g_file_new_for_path g_file_peek_path]. now rewrite Hq.
Qed.

Lemma load_query_ok fs self filename info :
  query_info fs filename = inr info ->
  passim_item_load_filename fs self filename
  = let self1 := assign_file self (Some (g_file_new_for_path filename)) in
    let self2 := assign_ctime self1 (time_created info) in
    let self3 := match basename self with
                 | None => assign_basename self2 (Some (g_path_get_basename filename))
                 | Some _ => self2
                 end in
    match hash self with
    | None =>
        match get_contents fs filename with
        | inl code => (assign_hash self3 None, FALSE (G_FILE_ERROR code))
        | inr buf =>
            (assign_hash self3 (Some (g_compute_checksum_for_data_sha256 buf)), TRUE)
        end
    | Some _ => (self3, TRUE)
    end.
Proof.
  intros Hq.
  unfold passim_item_load_filename, g_file_query_info,
    passim_compute_checksum_for_filename, g_file_get_contents,
    g_file_info_get_creation_date_time, passim_item_set_file.
  cbn [g_file_new_for_path g_file_peek_path]. rewrite Hq.
  destruct self as [h b ma sl sc f ct]; cbn.
  destruct b, h; cbn; try reflexivity;
    destruct (get_contents fs filename); reflexivity.
Qed.

Lemma load_basename_after_query fs self filename info :
  query_info fs filename = inr info ->
  basename (fst (passim_item_load_filename fs self filename))
  = match basename self with
    | None => Some (g_path_get_basename filename)
    | Some b => Some b
    end.
Proof.
  intros Hq. rewrite (load_query_ok _ _ _ _ Hq). cbn zeta.
  destruct (basename self) eqn:Hb, (hash self); try (exact Hb || reflexivity);
    destruct (get_contents fs filename); (exact Hb || reflexivity).
Qed.

(** C5, as the code has it. The call fails with a G_IO_ERROR whenever the
    metadata query fails, and then leaves [ctime] alone; whenever the query
    succeeds, [ctime] becomes the creation time the info carries whatever
    it held before, also when a later step fails; the call returns TRUE
    only after a successful query.  The info may carry no creation time,
    and [ctime] is then unset. *)
Theorem C5_load_ctime
    (fs : FileSystem) (self : PassimItemPrivate) (filename : string) :
  let after := passim_item_load_filename fs self filename in
  (forall code, query_info fs filename = inl code ->
     snd after = FALSE (G_IO_ERROR code) /\ ctime (fst after) = ctime self)
  /\ (forall info, query_info fs filename = inr info ->
     ctime (fst after) = g_file_info_get_creation_date_time info)
  /\ (snd after = TRUE ->
      exists info, query_info fs filename = inr info
                   /\ ctime (fst after) = g_file_info_get_creation_date_time info).
Proof.
  intros after. subst after.
  assert (Hok : forall info, query_info fs filename = inr info ->
            ctime (fst (passim_item_load_filename fs self filename))
            = g_file_info_get_creation_date_time info).
  { intros info Hq. rewrite (load_query_ok _ _ _ _ Hq). cbn zeta.
    destruct (basename self), (hash self); try reflexivity;
      destruct (get_contents fs filename); reflexivity. }
  split; [|split].
  - intros code Hq. rewrite (load_query_failed _ _ _ _ Hq). split; reflexivity.
  - exact Hok.
  - intros Htrue. destruct (query_info fs filename) as [code|info] eqn:Hq.
    + rewrite (load_query_failed _ _ _ _ Hq) in Htrue. discriminate.
    + exists info. split; [reflexivity | now apply Hok].
Qed.

Lemma C5_witness :
  let after := passim_item_load_filename hello_fs passim_item_new "/tmp/hello" in
  ctime (fst after) = Some {| unix_usec := 1700000000000000 |}
  /\ (let failed := passim_item_load_filename hello_fs passim_item_new "/gone" in
      snd failed = FALSE (G_IO_ERROR G_IO_ERROR_NOT_FOUND)
      /\ ctime (fst failed) = ctime passim_item_new).
Proof.
  split.
  - destruct (C5_load_ctime hello_fs passim_item_new "/tmp/hello") as (_ & Hok & _).
    apply (Hok {| time_created := Some {| unix_usec := 1700000000000000 |} |}).
    reflexivity.
  - destruct (C5_load_ctime hello_fs passim_item_new "/gone") as (Hfail & _).
    apply (Hfail G_IO_ERROR_NOT_FOUND). reflexivity.
Defined.

(** Against C5 as the specification states it: on a filesystem whose info carries no creation
    time, the call returns TRUE and leaves [ctime] unset. *)
Lemma C5_success_without_ctime :
  query_info no_btime_fs "/srv/a.bin" = inr {| time_created := None |}
  /\ snd (passim_item_load_filename no_btime_fs passim_item_new "/srv/a.bin") = TRUE
  /\ ctime (fst (passim_item_load_filename no_btime_fs passim_item_new "/srv/a.bin"))
     = None.
Proof. vm_compute. repeat split. Qed.

(** C6. Loader non-clobber: a basename set before the call is left as it
    is; an unset one is, after a successful call, the final component of
    the path ([g_path_get_basename], which for [dir/name] is [name]); a
    hash set before the call is left as it is and the content of the file
    is not read; an unset hash is, after a successful call, the checksum
    of the content of the file. *)
Theorem C6_loader_non_clobber
    (fs : FileSystem) (self : PassimItemPrivate) (filename : string) :
  let after := passim_item_load_filename fs self filename in
  (forall b, basename self = Some b -> basename (fst after) = Some b)
  /\ (basename self = None -> snd after = TRUE ->
      basename (fst after) = Some (g_path_get_basename filename)
      /\ forall dir name, filename = (dir ++ "/" ++ name)%string ->
           name <> "" -> no_separator name = true ->
           basename (fst after) = Some name)
  /\ (forall h, hash self = Some h ->
      hash (fst after) = Some h
      /\ forall fs', query_info fs' filename = query_info fs filename ->
           passim_item_load_filename fs' self filename = after)
  /\ (hash self = None -> snd after = TRUE ->
      exists buf, g_file_get_contents fs filename = inr buf
                  /\ passim_compute_checksum_for_filename fs filename
                     = inr (g_compute_checksum_for_data_sha256 buf)
                  /\ hash (fst after) = Some (g_compute_checksum_for_data_sha256 buf)).
Proof.
  intros after. subst after.
  destruct (query_info fs filename) as [code|info] eqn:Hq.
  - rewrite (load_query_failed _ _ _ _ Hq). cbn [fst snd].
    split; [|split; [|split]].
    + intros b Hb. exact Hb.
    + discriminate.
    + intros h Hh. split; [exact Hh|].
      intros fs' Hq'. now rewrite (load_query_failed _ _ _ _ Hq').
    + discriminate.
  - pose proof (load_basename_after_query _ self _ _ Hq) as Hbase.
    split; [|split; [|split]].
    + intros b Hb. now rewrite Hbase, Hb.
    + intros Hb Htrue. rewrite Hb in Hbase.
      split; [exact Hbase|].
      intros dir name -> Hne Hsep. rewrite Hbase.
      now rewrite g_path_get_basename_component.
    + intros h Hh. rewrite (load_query_ok _ _ _ _ Hq). cbn zeta.
      rewrite Hh. split.
      * destruct (basename self); exact Hh.
      * intros fs' Hq'.
        rewrite (load_query_ok _ _ _ _ Hq'). cbn zeta. now rewrite Hh.
    + rewrite (load_query_ok _ _ _ _ Hq). cbn zeta.
      intros Hh Htrue. rewrite Hh in *.
      unfold passim_compute_checksum_for_filename, g_file_get_contents.
      destruct (get_contents fs filename) as [code|buf]; [discriminate|].
      exists buf. repeat split.
Qed.

Lemma C6_witness :
  basename (fst (passim_item_load_filename hello_fs
                   (assign_basename passim_item_new (Some "custom")) "/tmp/hello"))
  = Some "custom"
  /\ basename (fst (passim_item_load_filename hello_fs passim_item_new "/tmp/hello"))
     = Some "hello"
  /\ hash (fst (passim_item_load_filename hello_fs
                  (assign_hash passim_item_new (Some "abc")) "/tmp/hello"))
     = Some "abc".
Proof.
  split; [|split].
  - destruct (C6_loader_non_clobber hello_fs
                (assign_basename passim_item_new (Some "custom")) "/tmp/hello")
      as (Hkeep & _).
    apply (Hkeep "custom"). reflexivity.
  - destruct (C6_loader_non_clobber hello_fs passim_item_new "/tmp/hello")
      as (_ & Hset & _).
    destruct (Hset eq_refl eq_refl) as [_ Hname].
    apply (Hname "/tmp" "hello"); [reflexivity | discriminate | reflexivity].
  - destruct (C6_loader_non_clobber hello_fs
                (assign_hash passim_item_new (Some "abc")) "/tmp/hello")
      as (_ & _ & Hkeep & _).
    apply (Hkeep "abc"). reflexivity.
Defined.

(** ** The GVariant codec *)

(** The encoding of an item whose identity fields are set and valid. *)
Lemma to_variant_of_valid (self : PassimItemPrivate) (b h : string) :
  basename self = Some b -> hash self = Some h ->
  g_utf8_validate b = true -> g_utf8_validate h = true ->
  passim_item_to_variant self
  = Trace [("filename", GV_string b);
           ("hash", GV_string h);
           ("max-age", GV_uint32 (max_age self));
           ("share-limit", GV_uint32 (share_limit self));
           ("share-count", GV_uint32 (share_count self))] 0.
Proof.
  intros Hb Hh Vb Vh.
  unfold passim_item_to_variant, g_variant_new_string.
  rewrite Hb, Hh, Vb, Vh. reflexivity.
Qed.

(** C1, as the code has it. For an item whose basename and hash are both
    set, to valid UTF-8, [passim_item_to_variant] raises no critical and
    returns the five entries "filename", "hash", "max-age", "share-limit"
    and "share-count" holding the item's fields. *)
Theorem C1_to_variant_set_fields (self : PassimItemPrivate) (b h : string) :
  basename self = Some b -> hash self = Some h ->
  g_utf8_validate b = true -> g_utf8_validate h = true ->
  passim_item_to_variant self
  = Trace [("filename", GV_string b);
           ("hash", GV_string h);
           ("max-age", GV_uint32 (max_age self));
           ("share-limit", GV_uint32 (share_limit self));
           ("share-count", GV_uint32 (share_count self))] 0.
Proof.
  exact (to_variant_of_valid self b h).
Qed.

Lemma C1_witness :
  passim_item_to_variant sample_item
  = Trace [("filename", GV_string "a.bin");
           ("hash", GV_string "abc");
           ("max-age", GV_uint32 3600);
           ("share-limit", GV_uint32 2);
           ("share-count", GV_uint32 1)] 0.
Proof.
  apply (C1_to_variant_set_fields sample_item "a.bin" "abc"); reflexivity.
Defined.

(** Against C1 as the specification states it: for a fresh item, whose basename and hash are
    unset, the strings handed to [g_variant_new_string] are NULL, four
    criticals are raised and the dictionary has no "filename" and no "hash"
    entry, so neither key holds the empty string. *)
Lemma C1_unset_fields_not_empty_string :
  basename passim_item_new = None /\ hash passim_item_new = None
  /\ passim_item_to_variant passim_item_new
     = Trace [("max-age", GV_uint32 86400);
              ("share-limit", GV_uint32 5);
              ("share-count", GV_uint32 0)] 4
  /\ g_variant_lookup_value (result (passim_item_to_variant passim_item_new)) "filename"
     <> Some (GV_string "")
  /\ g_variant_lookup_value (result (passim_item_to_variant passim_item_new)) "hash"
     <> Some (GV_string "").
Proof. repeat split; vm_compute; discriminate. Qed.

(** C3, as the code has it. Round trip: for an item whose basename and
    hash are both set, to valid UTF-8, decoding its encoding raises no
    critical and gives an item with the same basename, hash, max_age,
    share_limit and share_count (file and ctime are unset in the result). *)
Theorem C3_round_trip (self : PassimItemPrivate) (b h : string) :
  basename self = Some b -> hash self = Some h ->
  g_utf8_validate b = true -> g_utf8_validate h = true ->
  let decoded := passim_item_from_variant (result (passim_item_to_variant self)) in
  basename (result decoded) = basename self
  /\ hash (result decoded) = hash self
  /\ max_age (result decoded) = max_age self
  /\ share_limit (result decoded) = share_limit self
  /\ share_count (result decoded) = share_count self
  /\ file (result decoded) = None
  /\ ctime (result decoded) = None
  /\ criticals decoded = 0%nat.
Proof.
  intros Hb Hh Vb Vh.
  rewrite (to_variant_of_valid self b h Hb Hh Vb Vh).
  rewrite Hb, Hh. cbv. repeat split.
Qed.

Lemma C3_witness :
  let decoded := passim_item_from_variant (result (passim_item_to_variant sample_item)) in
  basename (result decoded) = Some "a.bin"
  /\ hash (result decoded) = Some "abc"
  /\ max_age (result decoded) = 3600
  /\ share_limit (result decoded) = 2
  /\ share_count (result decoded) = 1
  /\ file (result decoded) = None
  /\ ctime (result decoded) = None
  /\ criticals decoded = 0%nat.
Proof.
  apply (C3_round_trip sample_item "a.bin" "abc"); reflexivity.
Defined.

(** Against C3 as the specification states it: the basename of [latin1_item] is set but is not
    valid UTF-8; [g_variant_new_string] refuses it, the encoding has no
    "filename" entry and the decoded item has no basename. *)
Lemma C3_round_trip_loses_latin1_basename :
  basename latin1_item = Some latin1_name
  /\ hash latin1_item = Some "abc"
  /\ g_utf8_validate latin1_name = false
  /\ result (passim_item_to_variant latin1_item)
     = [("hash", GV_string "abc");
        ("max-age", GV_uint32 86400);
        ("share-limit", GV_uint32 5);
        ("share-count", GV_uint32 0)]
  /\ basename (result (passim_item_from_variant
                         (result (passim_item_to_variant latin1_item)))) = None
  /\ basename (result (passim_item_from_variant
                         (result (passim_item_to_variant latin1_item))))
     <> basename latin1_item.
Proof. repeat split; vm_compute; discriminate. Qed.

(** *** Decoding *)

Lemma bind_ret_r {A : Type} (m : Traced A) : (x <- m ;; ret x) = m.
Proof. destruct m as [a n]. unfold bind, ret. cbn. f_equal. lia. Qed.

Lemma from_variant_snoc (dict : VarDict) (entry : string * GVariant) :
  passim_item_from_variant (dict ++ [entry])
  = (priv <- passim_item_from_variant dict ;; from_variant_entry priv entry).
Proof.
  unfold passim_item_from_variant, from_variant_loop.
  now rewrite fold_left_app.
Qed.

Lemma last_value_snoc (dict : VarDict) (k : string) (v : GVariant) (key : string) :
  last_value (dict ++ [(k, v)]) key
  = if String.eqb k key then Some v else last_value dict key.
Proof. unfold last_value. now rewrite rev_app_distr. Qed.

(** The loop body with the comparisons of [g_strcmp0] decided. *)
Lemma from_variant_entry_eqb (priv : PassimItemPrivate) (key : string) (value : GVariant) :
  from_variant_entry priv (key, value)
  = (priv <- (if String.eqb key "filename"
              then s <- g_variant_dup_string value ;; ret (assign_basename priv s)
              else ret priv) ;;
     priv <- (if String.eqb key "hash"
              then s <- g_variant_dup_string value ;; ret (assign_hash priv s)
              else ret priv) ;;
     priv <- (if String.eqb key "max-age"
              then n <- g_variant_get_uint32 value ;; ret (assign_max_age priv n)
              else ret priv) ;;
     priv <- (if String.eqb key "share-limit"
              then n <- g_variant_get_uint32 value ;; ret (assign_share_limit priv n)
              else ret priv) ;;
     priv <- (if String.eqb key "share-count"
              then n <- g_variant_get_uint32 value ;; ret (assign_share_count priv n)
              else ret priv) ;;
     ret priv).
Proof. unfold from_variant_entry. now rewrite !g_strcmp0_eqb. Qed.

(** Case analysis on which of the five keys [k] is, if any. *)
Ltac split_key k :=
  destruct (String.eqb_spec k "filename") as [->|?];
  [|destruct (String.eqb_spec k "hash") as [->|?];
    [|destruct (String.eqb_spec k "max-age") as [->|?];
      [|destruct (String.eqb_spec k "share-limit") as [->|?];
        [|destruct (String.eqb_spec k "share-count") as [->|?]]]]].

Lemma from_variant_entry_unknown (priv : PassimItemPrivate) (key : string) (value : GVariant) :
  is_recognized key = false -> from_variant_entry priv (key, value) = ret priv.
Proof.
  intros Hk. rewrite from_variant_entry_eqb.
  unfold is_recognized, recognized_keys in Hk. cbn [existsb] in Hk.
  split_key key; try discriminate Hk. reflexivity.
Qed.

Lemma from_variant_entry_well_typed (priv : PassimItemPrivate) (entry : string * GVariant) :
  entry_well_typed entry = true -> criticals (from_variant_entry priv entry) = 0%nat.
Proof.
  destruct entry as [k v]. intros Hwt. rewrite from_variant_entry_eqb.
  unfold entry_well_typed in Hwt.
  split_key k; cbn in Hwt; destruct v; try discriminate Hwt; reflexivity.
Qed.

Lemma from_variant_fields (dict : VarDict) :
  result (passim_item_from_variant dict)
  = Priv (string_at dict "hash" (hash passim_item_new))
         (string_at dict "filename" (basename passim_item_new))
         (uint32_at dict "max-age" (max_age passim_item_new))
         (uint32_at dict "share-limit" (share_limit passim_item_new))
         (uint32_at dict "share-count" (share_count passim_item_new))
         (file passim_item_new) (ctime passim_item_new).
Proof.
  induction dict as [|[k v] dict IH] using rev_ind; [reflexivity|].
  rewrite from_variant_snoc. unfold bind at 1. cbn [result].
  rewrite IH. clear IH. rewrite from_variant_entry_eqb.
  unfold string_at, uint32_at. rewrite !last_value_snoc.
  split_key k; cbn; reflexivity.
Qed.

Lemma from_variant_no_critical (dict : VarDict) :
  well_typed dict = true -> criticals (passim_item_from_variant dict) = 0%nat.
Proof.
  induction dict as [|entry dict IH] using rev_ind; [reflexivity|].
  unfold well_typed. rewrite forallb_app. cbn [forallb].
  rewrite andb_true_r. intros [Hd He]%andb_true_iff.
  rewrite from_variant_snoc. unfold bind at 1. cbn [criticals].
  rewrite (IH Hd). now rewrite from_variant_entry_well_typed.
Qed.

Lemma from_variant_skips_unknown (d1 d2 : VarDict) (key : string) (value : GVariant) :
  is_recognized key = false ->
  passim_item_from_variant (d1 ++ (key, value) :: d2)
  = passim_item_from_variant (d1 ++ d2).
Proof.
  intros Hk. unfold passim_item_from_variant, from_variant_loop.
  rewrite !fold_left_app. cbn [fold_left]. f_equal.
  set (m := fold_left _ d1 _).
  transitivity (priv <- m ;; ret priv); [|apply bind_ret_r].
  unfold bind. f_equal; now rewrite from_variant_entry_unknown.
Qed.

(** C9. Permissive decode. [passim_item_from_variant] always returns an
    item. Each of the five fields is the value of the last entry under its
    key, and is the construction default when the key is absent; file and
    ctime stay unset. On a well-typed dictionary no critical is raised. An
    entry under any other key changes nothing, whatever it holds. In
    particular [{"hash": "abc", "unknown-key": 1}] gives a fresh item with
    hash "abc". *)
Theorem C9_permissive_decode :
  (forall dict,
     result (passim_item_from_variant dict)
     = Priv (string_at dict "hash" (hash passim_item_new))
            (string_at dict "filename" (basename passim_item_new))
            (uint32_at dict "max-age" (max_age passim_item_new))
            (uint32_at dict "share-limit" (share_limit passim_item_new))
            (uint32_at dict "share-count" (share_count passim_item_new))
            (file passim_item_new) (ctime passim_item_new))
  /\ (forall dict, well_typed dict = true ->
        criticals (passim_item_from_variant dict) = 0%nat)
  /\ (forall d1 d2 key value, is_recognized key = false ->
        passim_item_from_variant (d1 ++ (key, value) :: d2)
        = passim_item_from_variant (d1 ++ d2))
  /\ passim_item_from_variant [("hash", GV_string "abc"); ("unknown-key", GV_int32 1)]
     = ret (Priv (Some "abc") None 86400 5 0 None None).
Proof.
  split; [exact from_variant_fields|].
  split; [exact from_variant_no_critical|].
  split; [exact from_variant_skips_unknown|].
  reflexivity.
Qed.

Lemma C9_witness :
  criticals (passim_item_from_variant sample_dict) = 0%nat
  /\ passim_item_from_variant
       ([("hash", GV_string "abc")] ++ ("unknown-key", GV_int32 1) :: [])
     = passim_item_from_variant ([("hash", GV_string "abc")] ++ []).
Proof.
  destruct C9_permissive_decode as (_ & Hquiet & Hskip & _).
  split.
  - apply Hquiet. reflexivity.
  - apply Hskip. reflexivity.
Defined.

Example from_variant_sample_dict :
  passim_item_from_variant sample_dict
  = ret (Priv (Some "abc") None 7200 5 0 None None).
Proof. reflexivity. Qed.

Example from_variant_ill_typed :
  passim_item_from_variant [("hash", GV_uint32 7); ("max-age", GV_string "x")]
  = Trace (Priv None None 0 5 0 None None) 2.
Proof. reflexivity. Qed.

(** * Further properties of the item *)

(** ** Accessors *)

Lemma g_strcmp0_zero_eq (a b : option string) : g_strcmp0 a b = 0 -> a = b.
Proof.
  destruct a as [a|], b as [b|]; simpl; intros H; try discriminate H.
  - f_equal. now apply strcmp_zero_eq.
  - reflexivity.
Qed.

Lemma set_hash_assign (self : PassimItemPrivate) (v : option string) :
  passim_item_set_hash self v = assign_hash self v.
Proof.
  unfold passim_item_set_hash, g_strdup.
  destruct (Z.eqb_spec (g_strcmp0 (hash self) v) 0) as [E|_]; [|reflexivity].
  apply g_strcmp0_zero_eq in E. subst v. now destruct self.
Qed.

Lemma set_basename_assign (self : PassimItemPrivate) (v : option string) :
  passim_item_set_basename self v = assign_basename self v.
Proof.
  unfold passim_item_set_basename, g_strdup.
  destruct (Z.eqb_spec (g_strcmp0 (basename self) v) 0) as [E|_]; [|reflexivity].
  apply g_strcmp0_zero_eq in E. subst v. now destruct self.
Qed.

(** X1. Whatever the item holds and whatever value is passed (NULL
    included), after [passim_item_set_hash] the getter returns exactly the
    value passed and the six other fields are as before; the early return
    on [g_strcmp0 == 0] never keeps a value that differs from the one
    passed. The same holds for [passim_item_set_basename]. *)
Theorem X1_string_setter_then_getter (self : PassimItemPrivate) (v : option string) :
  (passim_item_get_hash (passim_item_set_hash self v) = v
   /\ passim_item_set_hash self v
      = Priv v (basename self) (max_age self) (share_limit self)
             (share_count self) (file self) (ctime self))
  /\ (passim_item_get_basename (passim_item_set_basename self v) = v
      /\ passim_item_set_basename self v
         = Priv (hash self) v (max_age self) (share_limit self)
                (share_count self) (file self) (ctime self)).
Proof.
  rewrite set_hash_assign, set_basename_assign. repeat split.
Qed.

(** X2. String setters compose: of two calls on the same field the last
    one wins, and calls on hash and on basename commute. *)
Theorem X2_string_setters_compose (self : PassimItemPrivate) (a b : option string) :
  passim_item_set_hash (passim_item_set_hash self a) b = passim_item_set_hash self b
  /\ passim_item_set_basename (passim_item_set_basename self a) b
     = passim_item_set_basename self b
  /\ passim_item_set_hash (passim_item_set_basename self a) b
     = passim_item_set_basename (passim_item_set_hash self b) a.
Proof.
  rewrite !set_hash_assign, !set_basename_assign. repeat split.
Qed.

(** X3. [passim_item_set_ctime] leaves the item holding exactly the time
    passed, on each of its paths (same time: no change; a time held:
    released first; NULL passed: the field stays cleared), and changes no
    other field. *)
Theorem X3_set_ctime (self : PassimItemPrivate) (t : option GDateTime) :
  passim_item_get_ctime (passim_item_set_ctime self t) = t
  /\ passim_item_set_ctime self t
     = Priv (hash self) (basename self) (max_age self) (share_limit self)
            (share_count self) (file self) t.
Proof.
  assert (E : passim_item_set_ctime self t
              = Priv (hash self) (basename self) (max_age self) (share_limit self)
                     (share_count self) (file self) t).
  { destruct self as [h b ma sl sc f ct]. unfold passim_item_set_ctime. cbn.
    destruct ct as [[x]|], t as [[y]|]; cbn; try reflexivity.
    destruct (Z.eqb_spec x y) as [->|_]; reflexivity. }
  rewrite E. split; reflexivity.
Qed.

(** ** The loader *)

(** X4. [passim_item_load_filename] never writes the three counters:
    max_age, share_limit and share_count are the same after the call as
    before it, whether it returns TRUE or FALSE. *)
Theorem X4_load_keeps_counters
    (fs : FileSystem) (self : PassimItemPrivate) (filename : string) :
  let after := fst (passim_item_load_filename fs self filename) in
  max_age after = max_age self
  /\ share_limit after = share_limit self
  /\ share_count after = share_count self.
Proof.
  cbn zeta. destruct (query_info fs filename) as [code|info] eqn:Hq.
  - rewrite (load_query_failed _ _ _ _ Hq). repeat split.
  - rewrite (load_query_ok _ _ _ _ Hq). cbn zeta.
    destruct (basename self), (hash self); try (repeat split; fail);
      destruct (get_contents fs filename); repeat split.
Qed.

(** X5. Failure at the checksum step: when the metadata query succeeds,
    the hash is unset and the content cannot be read, the call returns
    FALSE with the G_FILE_ERROR of the read; the file handle and the
    creation time are stored, an unset basename has been derived from the
    path (a set one is kept), and the hash is still unset. *)
Theorem X5_load_checksum_failure
    (fs : FileSystem) (self : PassimItemPrivate) (filename : string)
    (info : GFileInfo) (code : GFileError) :
  query_info fs filename = inr info ->
  hash self = None ->
  get_contents fs filename = inl code ->
  passim_item_load_filename fs self filename
  = (Priv None
          (match basename self with
           | None => Some (g_path_get_basename filename)
           | Some b => Some b
           end)
          (max_age self) (share_limit self) (share_count self)
          (Some (g_file_new_for_path filename))
          (g_file_info_get_creation_date_time info),
     FALSE (G_FILE_ERROR code)).
Proof.
  intros Hq Hh Hc. rewrite (load_query_ok _ _ _ _ Hq). cbn zeta.
  rewrite Hh, Hc. destruct self as [h b ma sl sc f ct]. cbn in *.
  destruct b; reflexivity.
Qed.

Lemma X5_witness :
  passim_item_load_filename unreadable_fs passim_item_new "/srv/locked.bin"
  = (Priv None (Some "locked.bin") 86400 5 0
          (Some (g_file_new_for_path "/srv/locked.bin"))
          (Some {| unix_usec := 1700000000000000 |}),
     FALSE (G_FILE_ERROR G_FILE_ERROR_ACCES)).
Proof.
  apply (X5_load_checksum_failure unreadable_fs passim_item_new "/srv/locked.bin"
           {| time_created := Some {| unix_usec := 1700000000000000 |} |}
           G_FILE_ERROR_ACCES); reflexivity.
Defined.

Lemma load_twice (fs : FileSystem) (self : PassimItemPrivate) (filename : string) :
  passim_item_load_filename fs
    (fst (passim_item_load_filename fs self filename)) filename
  = passim_item_load_filename fs self filename.
Proof.
  destruct (query_info fs filename) as [code|info] eqn:Hq.
  - now rewrite !(load_query_failed _ _ _ _ Hq).
  - rewrite !(load_query_ok _ _ _ _ Hq). cbn zeta.
    destruct self as [h b ma sl sc f ct]. cbn.
    destruct b, h; cbn; try reflexivity;
      destruct (get_contents fs filename) eqn:Hc; cbn; rewrite ?Hc; reflexivity.
Qed.

(** X6. Loading is idempotent: on an unchanged filesystem, loading the
    same path into the item a second time returns the same value and
    leaves the item exactly as the first call left it, whether that call
    succeeded or failed. *)
Theorem X6_load_idempotent
    (fs : FileSystem) (self : PassimItemPrivate) (filename : string) :
  let first := passim_item_load_filename fs self filename in
  passim_item_load_filename fs (fst first) filename = first.
Proof. exact (load_twice fs self filename). Qed.

(** X7. When [passim_item_load_filename] returns TRUE the item is fully
    identified: its file is the handle of the path, and its basename and
    its hash are both set. *)
Theorem X7_load_success_sets_identity
    (fs : FileSystem) (self : PassimItemPrivate) (filename : string) :
  snd (passim_item_load_filename fs self filename) = TRUE ->
  let after := fst (passim_item_load_filename fs self filename) in
  file after = Some (g_file_new_for_path filename)
  /\ (exists b, basename after = Some b)
  /\ (exists h, hash after = Some h).
Proof.
  destruct (query_info fs filename) as [code|info] eqn:Hq.
  - rewrite (load_query_failed _ _ _ _ Hq). discriminate.
  - rewrite (load_query_ok _ _ _ _ Hq). cbn zeta.
    destruct (basename self) as [b|] eqn:Hb, (hash self) as [h|] eqn:Hh;
      try destruct (get_contents fs filename) as [code|buf];
      cbn; intros Htrue; try discriminate Htrue;
      (split; [reflexivity | split; eexists; (eassumption || reflexivity)]).
Qed.

Lemma X7_witness :
  let after := fst (passim_item_load_filename hello_fs passim_item_new "/tmp/hello") in
  file after = Some (g_file_new_for_path "/tmp/hello")
  /\ (exists b, basename after = Some b)
  /\ (exists h, hash after = Some h).
Proof.
  apply (X7_load_success_sets_identity hello_fs passim_item_new "/tmp/hello").
  reflexivity.
Defined.

Lemma drop_while_head {A : Type} (p : A -> bool) (l : list A) (x : A) (r : list A) :
  drop_while p l = x :: r -> p x = false.
Proof.
  induction l as [|y l IH]; simpl; [discriminate|].
  destruct (p y) eqn:Hy; [exact IH|].
  intros E. injection E as -> _. exact Hy.
Qed.

Lemma take_while_all {A : Type} (p : A -> bool) (l : list A) :
  forallb p (take_while p l) = true.
Proof.
  induction l as [|y l IH]; simpl; [reflexivity|].
  destruct (p y) eqn:Hy; simpl; [now rewrite Hy | reflexivity].
Qed.

Lemma drop_while_app_all {A : Type} (p : A -> bool) (l r : list A) :
  forallb p l = true -> drop_while p (l ++ r) = drop_while p r.
Proof.
  induction l as [|y l IH]; simpl; [reflexivity|].
  intros [Hy Hl]%andb_true_iff. rewrite Hy. now apply IH.
Qed.

(** The basename is never empty, and holds a separator only when it is
    the lone "/" returned for a name made of separators. *)
Lemma g_path_get_basename_shape (file_name : string) :
  g_path_get_basename file_name <> ""
  /\ (g_path_get_basename file_name = "/"
      \/ no_separator (g_path_get_basename file_name) = true).
Proof.
  destruct (string_dec file_name "") as [->|Hne].
  { split; [discriminate | right; reflexivity]. }
  rewrite (g_path_get_basename_nonempty _ Hne).
  destruct (drop_while is_dir_separator (rev (list_ascii_of_string file_name)))
    as [|x r] eqn:E.
  { split; [discriminate | now left]. }
  apply drop_while_head in E.
  split.
  - cbn [take_while]. rewrite E. cbn [negb rev].
    destruct (rev (take_while (fun c => negb (is_dir_separator c)) r));
      discriminate.
  - right. unfold no_separator.
    rewrite list_ascii_of_string_of_list_ascii, forallb_rev.
    apply take_while_all.
Qed.

(** X8. On a path whose metadata can be queried, an unset basename is
    replaced by a name that is never empty and never contains a directory
    separator, except for the lone "/" obtained from a path made of
    separators only. *)
Theorem X8_loaded_basename_shape
    (fs : FileSystem) (self : PassimItemPrivate) (filename : string)
    (info : GFileInfo) :
  query_info fs filename = inr info ->
  basename self = None ->
  exists b,
    basename (fst (passim_item_load_filename fs self filename)) = Some b
    /\ b <> ""
    /\ (b = "/" \/ no_separator b = true).
Proof.
  intros Hq Hb. exists (g_path_get_basename filename).
  rewrite (load_basename_after_query _ _ _ _ Hq), Hb.
  split; [reflexivity | apply g_path_get_basename_shape].
Qed.

Lemma X8_witness :
  exists b,
    basename (fst (passim_item_load_filename hello_fs passim_item_new "/tmp/hello"))
    = Some b
    /\ b <> ""
    /\ (b = "/" \/ no_separator b = true).
Proof.
  apply (X8_loaded_basename_shape hello_fs passim_item_new "/tmp/hello"
           {| time_created := Some {| unix_usec := 1700000000000000 |} |});
    reflexivity.
Defined.

Lemma g_path_get_basename_trailing (path slashes : string) :
  path <> "" -> only_separators slashes = true ->
  g_path_get_basename (path ++ slashes)%string = g_path_get_basename path.
Proof.
  intros Hne Hs.
  rewrite (g_path_get_basename_nonempty path Hne).
  rewrite g_path_get_basename_nonempty.
  2:{ destruct path; [congruence | discriminate]. }
  rewrite list_ascii_of_string_app, rev_app_distr.
  rewrite drop_while_app_all; [reflexivity|].
  now rewrite forallb_rev.
Qed.

(** X9. Trailing directory separators do not count: loading
    [path ++ slashes] into an item with no basename gives, on success, the
    basename of [path] (so "/srv/dir//" is shared as "dir"). The path must
    not be empty. *)
Theorem X9_load_ignores_trailing_separators
    (fs : FileSystem) (self : PassimItemPrivate) (path slashes : string) :
  path <> "" -> only_separators slashes = true ->
  basename self = None ->
  snd (passim_item_load_filename fs self (path ++ slashes)%string) = TRUE ->
  basename (fst (passim_item_load_filename fs self (path ++ slashes)%string))
  = Some (g_path_get_basename path).
Proof.
  intros Hne Hs Hb Htrue.
  destruct (query_info fs (path ++ slashes)%string) as [code|info] eqn:Hq.
  - rewrite (load_query_failed _ _ _ _ Hq) in Htrue. discriminate.
  - rewrite (load_basename_after_query _ _ _ _ Hq), Hb.
    now rewrite g_path_get_basename_trailing.
Qed.

Lemma X9_witness :
  basename (fst (passim_item_load_filename dir_fs
                   (assign_hash passim_item_new (Some "abc")) "/srv/dir//"))
  = Some "dir".
Proof.
  apply (X9_load_ignores_trailing_separators dir_fs
           (assign_hash passim_item_new (Some "abc")) "/srv/dir" "//");
    (discriminate || reflexivity).
Defined.

(** ** The codec *)

Lemma round_trip_fields (self : PassimItemPrivate) :
  result (passim_item_from_variant (result (passim_item_to_variant self)))
  = Priv (encodable (hash self)) (encodable (basename self))
         (max_age self) (share_limit self) (share_count self) None None.
Proof.
  destruct self as [h b ma sl sc f ct].
  unfold passim_item_to_variant, g_variant_new_string, encodable.
  cbn [hash basename max_age share_limit share_count].
  destruct h as [h|], b as [b|];
    try destruct (g_utf8_validate h); try destruct (g_utf8_validate b);
    reflexivity.
Qed.

Lemma to_variant_criticals (self : PassimItemPrivate) :
  criticals (passim_item_to_variant self)
  = ((match encodable (basename self) with Some _ => 0 | None => 2 end)
     + (match encodable (hash self) with Some _ => 0 | None => 2 end))%nat.
Proof.
  destruct self as [h b ma sl sc f ct].
  unfold passim_item_to_variant, g_variant_new_string, encodable.
  cbn [hash basename max_age share_limit share_count].
  destruct h as [h|], b as [b|];
    try destruct (g_utf8_validate h); try destruct (g_utf8_validate b);
    reflexivity.
Qed.

(** X10. What a round trip through the codec keeps, for every item: the
    three counters always; the hash and the basename exactly when they are
    set and valid UTF-8, and otherwise the decoded field is unset; file and
    ctime never. *)
Theorem X10_round_trip_of_any_item (self : PassimItemPrivate) :
  let decoded :=
    result (passim_item_from_variant (result (passim_item_to_variant self))) in
  max_age decoded = max_age self
  /\ share_limit decoded = share_limit self
  /\ share_count decoded = share_count self
  /\ hash decoded = encodable (hash self)
  /\ basename decoded = encodable (basename self)
  /\ file decoded = None
  /\ ctime decoded = None.
Proof. cbn zeta. rewrite round_trip_fields. repeat split. Qed.

(** X11. [passim_item_to_variant] raises no critical exactly when the
    basename and the hash are both set and both valid UTF-8. *)
Theorem X11_to_variant_quiet_iff (self : PassimItemPrivate) :
  criticals (passim_item_to_variant self) = 0%nat
  <-> exists b h, basename self = Some b /\ hash self = Some h
                  /\ g_utf8_validate b = true /\ g_utf8_validate h = true.
Proof.
  rewrite to_variant_criticals. unfold encodable. split.
  - destruct (basename self) as [b|]; [|discriminate].
    destruct (g_utf8_validate b) eqn:Vb; [|discriminate].
    destruct (hash self) as [h|]; [|discriminate].
    destruct (g_utf8_validate h) eqn:Vh; [|discriminate].
    intros _. now exists b, h.
  - intros (b & h & -> & -> & -> & ->). reflexivity.
Qed.

(** X12. Whatever the item holds, the dictionary built by
    [passim_item_to_variant] has only keys among the five of the format,
    no key twice, and always the three counters with the item's values. *)
Theorem X12_to_variant_keys (self : PassimItemPrivate) :
  let dict := result (passim_item_to_variant self) in
  (forall key, In key (map fst dict) -> is_recognized key = true)
  /\ NoDup (map fst dict)
  /\ g_variant_lookup_value dict "max-age" = Some (GV_uint32 (max_age self))
  /\ g_variant_lookup_value dict "share-limit" = Some (GV_uint32 (share_limit self))
  /\ g_variant_lookup_value dict "share-count" = Some (GV_uint32 (share_count self)).
Proof.
  destruct self as [h b ma sl sc f ct].
  unfold passim_item_to_variant, g_variant_new_string.
  cbn [hash basename max_age share_limit share_count].
  destruct h as [h|], b as [b|];
    try destruct (g_utf8_validate h); try destruct (g_utf8_validate b);
    cbn; (split; [|split; [|repeat split]]);
    try (intros key Hin;
         repeat (destruct Hin as [<-|Hin]; [reflexivity|]); destruct Hin);
    repeat (constructor; [cbn; intuition discriminate|]); constructor.
Qed.






(** *** Decoding *)

Lemma from_variant_entry_criticals (priv : PassimItemPrivate) (entry : string * GVariant) :
  criticals (from_variant_entry priv entry)
  = if entry_well_typed entry then 0%nat else 1%nat.
Proof.
  destruct entry as [k v]. rewrite from_variant_entry_eqb.
  unfold entry_well_typed.
  split_key k; cbn; destruct v; reflexivity.
Qed.

Lemma from_variant_criticals (dict : VarDict) :
  criticals (passim_item_from_variant dict) = ill_typed_entries dict.
Proof.
  induction dict as [|entry dict IH] using rev_ind; [reflexivity|].
  rewrite from_variant_snoc. unfold bind at 1. cbn [criticals].
  rewrite IH, from_variant_entry_criticals.
  unfold ill_typed_entries. rewrite filter_app, length_app. cbn [filter].
  destruct (entry_well_typed entry); reflexivity.
Qed.

Lemma ill_typed_entries_zero (dict : VarDict) :
  ill_typed_entries dict = 0%nat <-> well_typed dict = true.
Proof.
  unfold ill_typed_entries, well_typed.
  induction dict as [|entry dict IH]; cbn [filter forallb]; [tauto|].
  destruct (entry_well_typed entry); cbn [negb andb List.length].
  - exact IH.
  - split; discriminate.
Qed.


Lemma lookup_value_in (dict : VarDict) (key : string) (v : GVariant) :
  g_variant_lookup_value dict key = Some v -> In (key, v) dict.
Proof.
  induction dict as [|[k0 v0] dict IH]; cbn; [discriminate|].
  destruct (String.eqb_spec k0 key) as [->|_].
  - intros [= ->]. now left.
  - intros H. right. now apply IH.
Qed.

Lemma lookup_value_nodup (dict : VarDict) (key : string) (v : GVariant) :
  NoDup (map fst dict) ->
  In (key, v) dict -> g_variant_lookup_value dict key = Some v.
Proof.
  induction dict as [|[k0 v0] dict IH]; cbn; [tauto|].
  intros Hnd. inversion Hnd as [|? ? Hnotin Hrest]; subst.
  intros [[= -> ->]|Hin].
  - now rewrite String.eqb_refl.
  - destruct (String.eqb_spec k0 key) as [->|_]; [|now apply IH].
    exfalso. apply Hnotin. change key with (fst (key, v)). now apply in_map.
Qed.

Lemma last_value_permutation (d1 d2 : VarDict) (key : string) :
  Permutation d1 d2 -> NoDup (map fst d1) ->
  last_value d1 key = last_value d2 key.
Proof.
  intros Hperm Hnd1.
  assert (Hnd2 : NoDup (map fst d2)).
  { eapply Permutation_NoDup; [|exact Hnd1]. now apply Permutation_map. }
  assert (R1 : NoDup (map fst (rev d1))) by (rewrite map_rev; now apply NoDup_rev).
  assert (R2 : NoDup (map fst (rev d2))) by (rewrite map_rev; now apply NoDup_rev).
  unfold last_value.
  destruct (g_variant_lookup_value (rev d1) key) as [v|] eqn:E1.
  - symmetry. apply lookup_value_nodup; [exact R2|].
    apply lookup_value_in in E1.
    apply (proj2 (in_rev d1 (key, v))) in E1.
    apply (proj1 (in_rev d2 (key, v))).
    eapply Permutation_in; eassumption.
  - destruct (g_variant_lookup_value (rev d2) key) as [v|] eqn:E2; [|reflexivity].
    apply lookup_value_in in E2.
    apply (proj2 (in_rev d2 (key, v))) in E2.
    apply (Permutation_in _ (Permutation_sym Hperm)) in E2.
    apply (proj1 (in_rev d1 (key, v))) in E2.
    rewrite (lookup_value_nodup (rev d1) key v R1 E2) in E1. discriminate.
Qed.

Lemma ill_typed_entries_permutation (d1 d2 : VarDict) :
  Permutation d1 d2 -> ill_typed_entries d1 = ill_typed_entries d2.
Proof.
  unfold ill_typed_entries.
  induction 1 as [|e l l' _ IH|e e' l|l l' l'' _ IH1 _ IH2]; cbn [filter].
  - reflexivity.
  - destruct (entry_well_typed e); cbn; congruence.
  - destruct (entry_well_typed e), (entry_well_typed e'); reflexivity.
  - congruence.
Qed.

(** X15. The order of the entries does not matter when no key occurs
    twice: the entries of such a dictionary taken in any other order decode
    to the same item, with the same number of criticals. *)
Theorem X15_from_variant_order (d1 d2 : VarDict) :
  Permutation d1 d2 -> NoDup (map fst d1) ->
  passim_item_from_variant d1 = passim_item_from_variant d2.
Proof.
  intros Hperm Hnd.
  assert (Hres : result (passim_item_from_variant d1)
                 = result (passim_item_from_variant d2)).
  { rewrite !from_variant_fields. unfold string_at, uint32_at.
    now rewrite !(last_value_permutation d1 d2 _ Hperm Hnd). }
  assert (Hcrit : criticals (passim_item_from_variant d1)
                  = criticals (passim_item_from_variant d2)).
  { rewrite !from_variant_criticals. now apply ill_typed_entries_permutation. }
  destruct (passim_item_from_variant d1), (passim_item_from_variant d2).
  cbn in Hres, Hcrit. congruence.
Qed.

Lemma X15_witness :
  passim_item_from_variant hash_then_age = passim_item_from_variant age_then_hash.
Proof.
  apply (X15_from_variant_order hash_then_age age_then_hash).
  - apply perm_swap.
  - repeat constructor; cbn; intuition discriminate.
Defined.

(** X16. Decoding then encoding normalises a dictionary: when the last
    "filename" and "hash" entries hold valid UTF-8 strings, the item
    decoded from it is encoded, without a critical, as the five entries in
    their fixed order, each holding the last value given for its key or
    the default; repeated and unknown keys are gone. *)
Theorem X16_decode_then_encode (dict : VarDict) (b h : string) :
  last_value dict "filename" = Some (GV_string b) ->
  last_value dict "hash" = Some (GV_string h) ->
  g_utf8_validate b = true -> g_utf8_validate h = true ->
  passim_item_to_variant (result (passim_item_from_variant dict))
  = Trace [("filename", GV_string b);
           ("hash", GV_string h);
           ("max-age", GV_uint32 (uint32_at dict "max-age" 86400));
           ("share-limit", GV_uint32 (uint32_at dict "share-limit" 5));
           ("share-count", GV_uint32 (uint32_at dict "share-count" 0))] 0.
Proof.
  intros Hb Hh Vb Vh.
  rewrite (to_variant_of_valid _ b h); try assumption.
  - now rewrite from_variant_fields.
  - rewrite from_variant_fields. cbn [basename]. unfold string_at. now rewrite Hb.
  - rewrite from_variant_fields. cbn [hash]. unfold string_at. now rewrite Hh.
Qed.

Lemma X16_witness :
  passim_item_to_variant (result (passim_item_from_variant noisy_dict))
  = Trace [("filename", GV_string "a.bin");
           ("hash", GV_string "abc");
           ("max-age", GV_uint32 7200);
           ("share-limit", GV_uint32 5);
           ("share-count", GV_uint32 0)] 0.
Proof.
  apply (X16_decode_then_encode noisy_dict "a.bin" "abc"); reflexivity.
Defined.




Lemma from_variant_filter (dict : VarDict) :
  passim_item_from_variant (filter (fun entry => is_recognized (fst entry)) dict)
  = passim_item_from_variant dict.
Proof.
  induction dict as [|[k v] dict IH] using rev_ind; [reflexivity|].
  rewrite filter_app. cbn [filter fst].
  destruct (is_recognized k) eqn:Hk.
  - now rewrite !from_variant_snoc, IH.
  - rewrite app_nil_r, from_variant_snoc, IH.
    transitivity (priv <- passim_item_from_variant dict ;; ret priv);
      [symmetry; apply bind_ret_r|].
    unfold bind. f_equal; now rewrite from_variant_entry_unknown.
Qed.

(** X18. [passim_item_from_variant] sees only the entries under its five
    keys: dropping every other entry from a dictionary, wherever it stands
    and whatever it holds, changes neither the decoded item nor the
    criticals raised. *)
Theorem X18_from_variant_reads_five_keys (dict : VarDict) :
  passim_item_from_variant (filter (fun entry => is_recognized (fst entry)) dict)
  = passim_item_from_variant dict.
Proof. exact (from_variant_filter dict). Qed.

(** X19. The decoder accepts whatever the encoder produced: for every
    item, also one whose hash or basename was refused by the encoder, the
    dictionary built by [passim_item_to_variant] is well typed and
    [passim_item_from_variant] decodes it without a critical. *)
Theorem X19_decoder_accepts_encoder_output (self : PassimItemPrivate) :
  well_typed (result (passim_item_to_variant self)) = true
  /\ criticals (passim_item_from_variant (result (passim_item_to_variant self)))
     = 0%nat.
Proof.
  assert (Hwt : well_typed (result (passim_item_to_variant self)) = true).
  { destruct self as [h b ma sl sc f ct].
    unfold passim_item_to_variant, g_variant_new_string.
    cbn [hash basename max_age share_limit share_count].
    destruct h as [h|], b as [b|];
      try destruct (g_utf8_validate h); try destruct (g_utf8_validate b);
      reflexivity. }
  split; [exact Hwt|].
  rewrite from_variant_criticals. now apply ill_typed_entries_zero.
Qed.
